(** * labproject: the scatter-plot transformer and the chart host

    A shallow embedding of

    - [src/pages/jordanTool/transformers/transformScatterplotData.ts]
      (module [Transform]): the function that turns the industry records of
      the GraphQL response into the points of the scatter plot;
    - [src/components/dataViz/index.tsx] (module [DataViz]): the render
      effect of the chart host and its image-export handler.

    JavaScript values are modelled by the types the TypeScript sources give
    them.  A value of type [T | null] is an [option T]; an array is a [list];
    a mutable array that is only ever pushed to is a list that grows at its
    end; the calls to external collaborators are either parameters of a
    section (pure library functions) or entries of a trace (drawing calls). *)

From Stdlib Require Import List String Ascii ZArith QArith Bool Lia.
From Stdlib Require Import DecimalString.
Import ListNotations.

Set Implicit Arguments.
Local Open Scope nat_scope.
Local Open Scope string_scope.
Local Open Scope list_scope.

(** ** JavaScript numbers, strings and truthiness *)

Module JS.

(** A JavaScript number is an IEEE double: a NaN, an infinity, or a finite
    value, which is a rational.  The relational operators of the language
    compare the exact values, and every comparison with NaN is false. *)
Inductive number : Type :=
| NaN
| NegInfinity
| Infinity
| Finite (q : Q).

Definition of_Z (z : Z) : number := Finite (inject_Z z).

(** [a < b] *)
Definition lt (a b : number) : bool :=
  match a, b with
  | NaN, _ | _, NaN => false
  | _, NegInfinity => false
  | NegInfinity, _ => true
  | Infinity, _ => false
  | Finite _, Infinity => true
  | Finite p, Finite q =>
      match Qcompare p q with Lt => true | _ => false end
  end.

(** [a >= b] *)
Definition ge (a b : number) : bool :=
  match a, b with
  | NaN, _ | _, NaN => false
  | _, _ => negb (lt a b)
  end.

(** [a == b] on numbers ([===] agrees with it there). *)
Definition eq_num (a b : number) : bool :=
  match a, b with
  | NaN, _ | _, NaN => false
  | NegInfinity, NegInfinity | Infinity, Infinity => true
  | Finite p, Finite q => Qeq_bool p q
  | _, _ => false
  end.

(** Truthiness of a value of type [string | null]: [null] and the empty
    string are falsy.  The result is the narrowed value. *)
Definition truthy_string (s : option string) : option string :=
  match s with
  | Some v => if String.eqb v EmptyString then None else Some v
  | None => None
  end.

(** Truthiness of an integer-valued number such as [clientWidth]. *)
Definition truthy_Z (z : Z) : bool := negb (Z.eqb z 0).

(** [a[0]]: [undefined] on the empty array. *)
Definition first {A : Type} (a : list A) : option A := hd_error a.

End JS.

(** Sequencing of the conjuncts of a guard: [a && b] goes on to [b] only
    when [a] is truthy, with [a] narrowed inside [b]. *)
Definition and_then {A B : Type} (a : option A) (b : A -> option B) : option B :=
  match a with
  | Some v => b v
  | None => None
  end.

Declare Scope guard_scope.
Delimit Scope guard_scope with guard.
Notation "x <- a ;; b" := (and_then a (fun x => b))
  (at level 200, a at level 100, b at level 200, right associativity,
   only parsing) : guard_scope.

(** ** The scatter-data transformer *)

Module Transform.

(** Modelled from the spec: the declaration of [JordanIndustry]
    ([graphql/graphQLTypes]) is not among the sources.  The record has the
    fields the transformer reads.  The four texts are nullable strings;
    [factors] holds a list of edges, each with a nullable node that carries
    the three nullable numeric metrics.  The transformer compares the
    metrics with [null] and then uses them as numbers, so a metric is
    [number | null]. *)
Record JordanFactors : Type := {
  viability : option JS.number;
  attractiveness : option JS.number;
  rca : option JS.number
}.

Record FactorsEdge : Type := {
  node : option JordanFactors
}.

Record FactorsConnection : Type := {
  edges : option (list (option FactorsEdge))
}.

Record JordanIndustry : Type := {
  industryCode : option string;
  title : option string;
  keywords : option string;
  description : option string;
  factors : option FactorsConnection
}.

(** [TreeNode] of react-dropdown-tree-select, as the transformer builds it. *)
Module TreeNode.
Record t : Type := {
  value : string;
  label : string
}.
End TreeNode.

Section WithLibraries.

(** [rgba] of the polished library. *)
Variable rgba : string -> JS.number -> string.

(** The conversion of a number to a string that [string + number]
    performs. *)
Variable number_to_string : JS.number -> string.

(** What a call of the selection callback acts on. *)
Variable World : Type.

(** The arrow function [() => setSelectedIndustry({value: industryCode,
    label: title})].  Every evaluation of the arrow expression makes a
    new function object: [fn_id] is its identity, the other fields are
    what it closes over. *)
Record Closure : Type := {
  fn_id : nat;
  captured_setSelectedIndustry : TreeNode.t -> World -> World;
  captured_industryCode : string;
  captured_title : string
}.

Definition call (f : Closure) : World -> World :=
  captured_setSelectedIndustry f
    {| TreeNode.value := captured_industryCode f;
       TreeNode.label := captured_title f |}.

Record ScatterPlotDatum : Type := {
  label : string;
  x : JS.number;
  y : JS.number;
  fill : string;
  highlighted : bool;
  tooltipContent : string;
  tooltipContentOnly : bool;
  onClick : Closure
}.

Record Input : Type := {
  rawDatum : list JordanIndustry;
  id : string;
  setSelectedIndustry : TreeNode.t -> World -> World
}.

(** The values the condition of the [if] has narrowed when it holds. *)
Record Checked : Type := {
  c_industryCode : string;
  c_title : string;
  c_keywords : string;
  c_description : string;
  c_node : JordanFactors;
  c_viability : JS.number;
  c_attractiveness : JS.number;
  c_rca : JS.number
}.

(** The condition of the [if], conjunct by conjunct. *)
Definition check (datum : JordanIndustry) : option Checked :=
  (industryCode' <- JS.truthy_string (industryCode datum) ;;
   title' <- JS.truthy_string (title datum) ;;
   keywords' <- JS.truthy_string (keywords datum) ;;
   description' <- JS.truthy_string (description datum) ;;
   factors' <- factors datum ;;
   edges' <- edges factors' ;;
   edge0 <- and_then (JS.first edges') (fun e => e) ;;
   node' <- node edge0 ;;
   viability' <- viability node' ;;
   attractiveness' <- attractiveness node' ;;
   rca' <- rca node' ;;
   Some {| c_industryCode := industryCode'; c_title := title';
           c_keywords := keywords'; c_description := description';
           c_node := node';
           c_viability := viability'; c_attractiveness := attractiveness';
           c_rca := rca' |})%guard.

Definition one : JS.number := JS.of_Z 1.
Definition half : JS.number := JS.Finite (1 # 2)%Q.

(** The body of the [if]: the object pushed for a record that passed the
    condition.  [fresh] is the identity of the function object made for
    [onClick]. *)
Definition point (input : Input) (fresh : nat) (c : Checked)
  : ScatterPlotDatum :=
  let color := if JS.lt (c_rca c) one then "#46899F" else "#E0B04E" in
  let x := c_viability c in
  let y := c_attractiveness c in
  let onClick :=
    {| fn_id := fresh;
       captured_setSelectedIndustry := setSelectedIndustry input;
       captured_industryCode := c_industryCode c;
       captured_title := c_title c |} in
  {| label := c_title c;
     x := x;
     y := y;
     fill := rgba color half;
     highlighted := String.eqb (c_industryCode c) (id input);
     tooltipContent :=
       "<strong>Theme:</strong> " ++ c_description c ++
       "<br /><strong>SubTheme:</strong> " ++ c_keywords c ++
       "<br /><strong>Description:</strong> " ++ c_title c ++
       "<br /><strong>Viability:</strong> " ++ number_to_string x ++
       "<br /><strong>Attractiveness:</strong> " ++ number_to_string y;
     tooltipContentOnly := true;
     onClick := onClick |}%string.

(** The state of a run: the array [transformedData] and the identity the
    next function object gets. *)
Definition State : Type := (list ScatterPlotDatum * nat)%type.

(** The callback of [rawDatum.forEach]. *)
Definition visit (input : Input) (st : State) (datum : JordanIndustry)
  : State :=
  let '(transformedData, fresh) := st in
  match check datum with
  | Some c => ((transformedData ++ [point input fresh c])%list, S fresh)
  | None => (transformedData, fresh)
  end.

(** [rawDatum.forEach] over a given section of the array. *)
Definition forEach (input : Input) (data : list JordanIndustry)
  (st : State) : State :=
  fold_left (visit input) data st.

(** The exported function.  [fresh] is the identity of the first function
    object the call makes; the second component of the result is the
    first identity the call has left unused. *)
Definition transform (input : Input) (fresh : nat) : State :=
  let transformedData := [] in
  forEach input (rawDatum input) (transformedData, fresh).

End WithLibraries.

End Transform.

(** ** The chart host *)

Module DataViz.

Section Host.

(** DOM elements, and the chart data the host hands on unread. *)
Variables Element Data : Type.

(** [enum VizType]: string-valued, so a tag is a string at run time. *)
Definition VizType : Type := string.
Definition ScatterPlot : VizType := "ScatterPlot".
Definition BarChart : VizType := "BarChart".
Definition RadarChart : VizType := "RadarChart".

Record AxisLabels : Type := {
  left : option string;
  bottom : option string
}.

(** [color: {start: string, end: string}] *)
Record Color : Type := {
  start : string;
  end_ : string
}.

(** [Props]: the base properties and the fields of the three shapes of
    the union; a field that a shape does not have is [undefined]. *)
Record Props : Type := {
  id : string;
  vizType : VizType;
  enableImageDownload : option bool;
  chartTitle : option string;
  data : Data;
  axisLabels : option AxisLabels;
  overlayData : option Data;
  color : option Color;
  maxValue : option JS.number
}.

(** The part of the sizing element the host reads. *)
Record SizingNode : Type := {
  clientWidth : Z;
  clientHeight : Z
}.

(** The [current] of the three references the host uses. *)
Record Refs : Type := {
  svgNodeRef : option Element;
  sizingNodeRef : option SizingNode;
  tooltipNodeRef : option Element
}.

(** [select(node)] of d3-selection. *)
Inductive Selection : Type :=
| select (node : Element).

(** [scaleOrdinal().range(colors)] of d3-scale. *)
Inductive Scale : Type :=
| scaleOrdinal_range (colors : list string).

Record Size : Type := {
  width : Z;
  height : Z
}.

Record RadarOptions : Type := {
  options_width : Z;
  options_height : Z;
  options_color : Scale;
  options_maxValue : option JS.number
}.

(** The calls of the three drawing primitives, with their arguments. *)
Inductive Draw : Type :=
| createScatterPlot (svg tooltip : Selection) (data : Data) (size : Size)
    (axisLabels : option AxisLabels)
| createBarChart (svg tooltip : Selection) (data : Data) (size : Size)
    (axisLabels : option AxisLabels) (overlayData : option Data)
| createRadarChart (svg tooltip : Selection) (data : Data)
    (options : RadarOptions).

(** What running the effect gives: the drawing calls made, in order, and
    the node the returned clean-up function empties (if any); or the
    error thrown. *)
Record Effect : Type := {
  drawn : list Draw;
  cleanup : option Element
}.

Inductive Outcome (A : Type) : Type :=
| Returned (a : A)
| Thrown (error : string).
Arguments Thrown {A} error.

(** The body of [useEffect]. *)
Definition effect (refs : Refs) (props : Props) : Outcome Effect :=
  match svgNodeRef refs, sizingNodeRef refs, tooltipNodeRef refs with
  | Some svgNode, Some sizingNode, Some tooltipNode =>
      let svg := select svgNode in
      let tooltip := select tooltipNode in
      if String.eqb (vizType props) ScatterPlot then
        Returned
          {| drawn :=
               [createScatterPlot svg tooltip (data props)
                  {| width := clientWidth sizingNode;
                     height := clientHeight sizingNode |}
                  (axisLabels props)];
             cleanup := Some svgNode |}
      else if String.eqb (vizType props) BarChart then
        Returned
          {| drawn :=
               [createBarChart svg tooltip (data props)
                  {| width := clientWidth sizingNode;
                     height := clientHeight sizingNode |}
                  (axisLabels props) (overlayData props)];
             cleanup := Some svgNode |}
      else if String.eqb (vizType props) RadarChart then
        let '(width, height) :=
          if Z.gtb (clientWidth sizingNode) (clientHeight sizingNode)
          then (clientHeight sizingNode, clientHeight sizingNode)
          else (clientWidth sizingNode, clientWidth sizingNode) in
        match color props with
        | Some c =>
            Returned
              {| drawn :=
                   [createRadarChart svg tooltip (data props)
                      {| options_width := width;
                         options_height := height;
                         options_color :=
                           scaleOrdinal_range [start c; end_ c];
                         options_maxValue := maxValue props |}];
                 cleanup := Some svgNode |}
        | None => Thrown "TypeError"
        end
      else Returned {| drawn := []; cleanup := Some svgNode |}
  | _, _, _ => Returned {| drawn := []; cleanup := None |}
  end.

(** The argument of [downloadImage]. *)
Record ImageRequest : Type := {
  image_svg : option Element;
  image_width : option Z;
  image_height : option Z;
  image_title : string
}.

Definition highResMultiplier : Z := 3.

(** [handleDownloadImage]: the request it passes to [downloadImage]. *)
Definition handleDownloadImage (refs : Refs) (props : Props)
  : ImageRequest :=
  let svgNode := svgNodeRef refs in
  let sizingNode := sizingNodeRef refs in
  let '(width, height) :=
    match String.eqb (vizType props) RadarChart, sizingNode with
    | true, Some sizingNode =>
        if Z.gtb (clientWidth sizingNode) (clientHeight sizingNode)
        then (Some (clientHeight sizingNode * highResMultiplier)%Z,
              Some (clientHeight sizingNode * highResMultiplier)%Z)
        else (Some (clientWidth sizingNode * highResMultiplier)%Z,
              Some (clientWidth sizingNode * highResMultiplier)%Z)
    | _, _ =>
        (match sizingNode with
         | Some n =>
             if JS.truthy_Z (clientWidth n)
             then Some (clientWidth n * highResMultiplier)%Z else None
         | None => None
         end,
         match sizingNode with
         | Some n =>
             if JS.truthy_Z (clientHeight n)
             then Some (clientHeight n * highResMultiplier)%Z else None
         | None => None
         end)
    end in
  let title :=
    match JS.truthy_string (chartTitle props) with
    | Some t => t
    | None => "chart"
    end in
  {| image_svg := svgNode; image_width := width; image_height := height;
     image_title := title |}.

End Host.

Arguments Thrown {A} error.

End DataViz.

(** ** Notions of the specification, for the transformer *)

Module TransformSpec.
Import Transform.

(** A text field is present and non-empty. *)
Definition present_nonempty (s : option string) : Prop :=
  exists v, s = Some v /\ v <> EmptyString.

(** [factors.edges] is a non-empty list. *)
Definition edges_nonempty (d : JordanIndustry) : Prop :=
  exists f es, factors d = Some f /\ edges f = Some es /\ es <> [].

(** The node of the first edge. *)
Definition first_node (d : JordanIndustry) : option JordanFactors :=
  match factors d with
  | Some f =>
      match edges f with
      | Some (Some e :: _) => node e
      | _ => None
      end
  | None => None
  end.

(** The three metrics of a node are present and non-null. *)
Definition metrics_present (n : JordanFactors) : Prop :=
  viability n <> None /\ attractiveness n <> None /\ rca n <> None.

(** The record is well-formed for plotting. *)
Definition plottable (d : JordanIndustry) : Prop :=
  present_nonempty (industryCode d) /\
  present_nonempty (title d) /\
  present_nonempty (keywords d) /\
  present_nonempty (description d) /\
  edges_nonempty d /\
  exists n, first_node d = Some n /\ metrics_present n.

Section WithLibraries.

Variable rgba : string -> JS.number -> string.
Variable number_to_string : JS.number -> string.
Variable World : Type.

Local Abbreviation Input := (Input World).
Local Abbreviation ScatterPlotDatum := (ScatterPlotDatum World).
Local Abbreviation forEach := (forEach rgba number_to_string).
Local Abbreviation point := (point rgba number_to_string).

(** The state of the run of [transform] after the first [k] records. *)
Definition after (input : Input) (fresh : nat) (k : nat) : State World :=
  forEach input (firstn k (rawDatum input)) ([], fresh).

(** The record [d] of the input is included, and [p] is the point pushed
    for it. *)
Definition emits (input : Input) (fresh : nat) (d : JordanIndustry)
  (p : ScatterPlotDatum) : Prop :=
  exists k,
    nth_error (rawDatum input) k = Some d /\
    fst (after input fresh (S k)) = fst (after input fresh k) ++ [p].

(** The record passes the condition of the transformer. *)
Definition included (d : JordanIndustry) : bool :=
  match check d with Some _ => true | None => false end.

(** A stable filter-map: the points of the records that pass, one for
    each, in the order of the records. *)
Fixpoint stable_filter_map (input : Input) (data : list JordanIndustry)
  (fresh : nat) : list ScatterPlotDatum :=
  match data with
  | [] => []
  | d :: rest =>
      match check d with
      | Some c => point input fresh c :: stable_filter_map input rest (S fresh)
      | None => stable_filter_map input rest fresh
      end
  end.

(** Two points are equal in every field but [onClick]. *)
Definition equal_but_onClick (p q : ScatterPlotDatum) : Prop :=
  label p = label q /\
  x p = x q /\
  y p = y q /\
  fill p = fill q /\
  highlighted p = highlighted q /\
  tooltipContent p = tooltipContent q /\
  tooltipContentOnly p = tooltipContentOnly q.

End WithLibraries.

Arguments equal_but_onClick {World} p q.

End TransformSpec.

(** ** Notions of the specification, for the chart host *)

Module DataVizSpec.
Import DataViz.

Section Host.

Variables Element Data : Type.

(** The size a drawing call is given. *)
Definition drawn_size (d : Draw Element Data) : Size :=
  match d with
  | createScatterPlot _ _ _ size _ => size
  | createBarChart _ _ _ size _ _ => size
  | createRadarChart _ _ _ options =>
      {| width := options_width options;
         height := options_height options |}
  end.

(** The content box of the sizing element. *)
Definition container_box (n : SizingNode) : Size :=
  {| width := clientWidth n; height := clientHeight n |}.

(** The square on the smaller side of the sizing element. *)
Definition min_square (n : SizingNode) : Size :=
  {| width := Z.min (clientWidth n) (clientHeight n);
     height := Z.min (clientWidth n) (clientHeight n) |}.

(** The tag is one of the three of [VizType]. *)
Definition recognized (tag : VizType) : Prop :=
  tag = ScatterPlot \/ tag = BarChart \/ tag = RadarChart.

End Host.

End DataVizSpec.

(** ** Example inputs *)

Module Example.
Import Transform.

(** Stand-ins for the two library functions, to run the transformer on
    examples.  [show] prints an integer in decimal, as the conversion of
    the language does for the integers of the examples. *)
Definition show (n : JS.number) : string :=
  match n with
  | JS.Finite q =>
      if Pos.eqb (Qden q) 1
      then NilZero.string_of_int (Z.to_int (Qnum q))
      else "?"
  | _ => "?"
  end.

Definition css (color : string) (alpha : JS.number) : string :=
  match alpha with
  | JS.Finite q =>
      if Qeq_bool q (1 # 2)%Q then color ++ "80" else color
  | _ => color
  end.

(** The callback records the selections made. *)
Definition World : Type := list TreeNode.t.
Definition select_industry (v : TreeNode.t) (w : World) : World := v :: w.

Definition metrics (v a r : Q) : JordanFactors :=
  {| viability := Some (JS.Finite v);
     attractiveness := Some (JS.Finite a);
     rca := Some (JS.Finite r) |}.

Definition record (code ttl kw dsc : string) (n : JordanFactors)
  : JordanIndustry :=
  {| industryCode := Some code; title := Some ttl; keywords := Some kw;
     description := Some dsc;
     factors := Some {| edges := Some [Some {| node := Some n |}] |} |}.

(** The record of the scenarios of the specification. *)
Definition tech : JordanIndustry :=
  record "A1" "Tech" "soft" "desc" (metrics 5 7 (8 # 10)).

Definition tech_at_average : JordanIndustry :=
  record "A1" "Tech" "soft" "desc" (metrics 5 7 1).

Definition tech_without_description : JordanIndustry :=
  {| industryCode := Some "A1"; title := Some "Tech";
     keywords := Some "soft"; description := None;
     factors := factors tech |}.

Definition input_of (data : list JordanIndustry) (selected : string)
  : Input World :=
  {| rawDatum := data; id := selected;
     setSelectedIndustry := select_industry |}.

Definition run (data : list JordanIndustry) (selected : string)
  : list (ScatterPlotDatum World) :=
  fst (transform css show (input_of data selected) 0).

(** The point of the first scenario of the specification. *)
Definition tech_point : ScatterPlotDatum World :=
  {| label := "Tech";
     x := JS.Finite 5;
     y := JS.Finite 7;
     fill := "#46899F80";
     highlighted := true;
     tooltipContent :=
       "<strong>Theme:</strong> desc<br /><strong>SubTheme:</strong> soft<br /><strong>Description:</strong> Tech<br /><strong>Viability:</strong> 5<br /><strong>Attractiveness:</strong> 7";
     tooltipContentOnly := true;
     onClick :=
       {| fn_id := 0;
          captured_setSelectedIndustry := select_industry;
          captured_industryCode := "A1";
          captured_title := "Tech" |} |}.

(** A chart host: elements go by their names, the data are numbers. *)
Definition Element : Type := string.
Definition Data : Type := list Z.

Definition mounted (w h : Z) : DataViz.Refs Element :=
  {| DataViz.svgNodeRef := Some "svg";
     DataViz.sizingNodeRef :=
       Some {| DataViz.clientWidth := w; DataViz.clientHeight := h |};
     DataViz.tooltipNodeRef := Some "tooltip" |}.

Definition unmounted : DataViz.Refs Element :=
  {| DataViz.svgNodeRef := None;
     DataViz.sizingNodeRef := None;
     DataViz.tooltipNodeRef := None |}.

Definition gradient : DataViz.Color :=
  {| DataViz.start := "#ffffff"; DataViz.end_ := "#000000" |}.

Definition chart (tag : string) : DataViz.Props Data :=
  {| DataViz.id := "chart-1";
     DataViz.vizType := tag;
     DataViz.enableImageDownload := Some true;
     DataViz.chartTitle := None;
     DataViz.data := [1; 2; 3]%Z;
     DataViz.axisLabels := None;
     DataViz.overlayData := None;
     DataViz.color :=
       if String.eqb tag DataViz.RadarChart then Some gradient else None;
     DataViz.maxValue :=
       if String.eqb tag DataViz.RadarChart then Some (JS.of_Z 10)
       else None |}.

(** The radar call of the host in a container of 800 by 400. *)
Definition radar_800_by_400 : DataViz.Draw Element Data :=
  DataViz.createRadarChart (DataViz.select "svg") (DataViz.select "tooltip")
    [1; 2; 3]%Z
    {| DataViz.options_width := 400; DataViz.options_height := 400;
       DataViz.options_color :=
         DataViz.scaleOrdinal_range ["#ffffff"; "#000000"];
       DataViz.options_maxValue := Some (JS.of_Z 10) |}.

End Example.

(** ** The download buttons of the chart host *)

Module DataVizRender.
Import DataViz.

Section Host.

Variables Data Json : Type.

(** What a click on a button runs: [handleDownloadImage], or the arrow
    function [() => downloadData()]. *)
Inductive Handler : Type :=
| run_handleDownloadImage
| run_downloadData.

(** A [DownloadButton] element: its [onClick] and its text. *)
Record DownloadButton : Type := {
  button_onClick : Handler;
  button_text : string
}.

(** The [DownloadButtonsContainer] element: the [marginTop] of its style and
    its two children, either of which may be [null]. *)
Record DownloadButtonsContainer : Type := {
  style_marginTop : option string;
  first_child : option DownloadButton;
  second_child : option DownloadButton
}.

(** [enableImageDownload !== true] *)
Definition not_true (b : option bool) : bool :=
  match b with
  | Some true => false
  | _ => true
  end.

(** [downloadImageButton] *)
Definition downloadImageButton (props : Props Data) : option DownloadButton :=
  if not_true (enableImageDownload props) then None
  else Some {| button_onClick := run_handleDownloadImage;
               button_text := "Download Image" |}.

(** [downloadDataButton]; [jsonToDownload] is the property of that name,
    [undefined] when the caller gives none. *)
Definition downloadDataButton (jsonToDownload : option Json)
  : option DownloadButton :=
  match jsonToDownload with
  | None => None
  | Some _ => Some {| button_onClick := run_downloadData;
                      button_text := "Download Data" |}
  end.

(** [x !== null] *)
Definition not_null {A : Type} (x : option A) : bool :=
  match x with
  | Some _ => true
  | None => false
  end.

(** [downloadButtons] *)
Definition downloadButtons (props : Props Data) (jsonToDownload : option Json)
  : option DownloadButtonsContainer :=
  if not_null (downloadImageButton props)
     || not_null (downloadDataButton jsonToDownload)
  then Some {| style_marginTop :=
                 if negb (String.eqb (vizType props) RadarChart)
                 then Some "1rem" else None;
               first_child := downloadImageButton props;
               second_child := downloadDataButton jsonToDownload |}
  else None.

End Host.

End DataVizRender.

(** ** Further notions for the transformer *)

Module TransformNotions.
Import Transform.

(** The record [d] with [es] as the edges of its factors. *)
Definition with_edges (d : JordanIndustry) (es : list (option FactorsEdge))
  : JordanIndustry :=
  {| industryCode := industryCode d;
     title := title d;
     keywords := keywords d;
     description := description d;
     factors := Some {| edges := Some es |} |}.

Section WithWorld.

Variable World : Type.

(** The input with another selected id. *)
Definition with_id (input : Input World) (selected : string) : Input World :=
  {| rawDatum := rawDatum input;
     id := selected;
     setSelectedIndustry := setSelectedIndustry input |}.

(** The input with other records. *)
Definition with_rawDatum (input : Input World) (data : list JordanIndustry)
  : Input World :=
  {| rawDatum := data;
     id := id input;
     setSelectedIndustry := setSelectedIndustry input |}.

(** Two points are equal in every field but [highlighted]. *)
Definition equal_but_highlighted (p q : ScatterPlotDatum World) : Prop :=
  label p = label q /\
  x p = x q /\
  y p = y q /\
  fill p = fill q /\
  tooltipContent p = tooltipContent q /\
  tooltipContentOnly p = tooltipContentOnly q /\
  onClick p = onClick q.

End WithWorld.

Arguments equal_but_highlighted {World} p q.

End TransformNotions.

(** ** Further notions for the chart host *)

Module DataVizNotions.
Import DataViz.

(** The three references of the chart host are attached. *)
Definition attached {Element : Type} (refs : Refs Element) : Prop :=
  svgNodeRef refs <> None /\
  sizingNodeRef refs <> None /\
  tooltipNodeRef refs <> None.

End DataVizNotions.

(** ** More example inputs *)

Module MoreExamples.
Import Transform Example.

(** A second industry. *)
Definition retail : JordanIndustry :=
  record "B2" "Retail" "shops" "selling" (metrics 3 4 2).

(** The edge of [tech]. *)
Definition tech_edge : option FactorsEdge :=
  Some {| node := Some (metrics 5 7 (8 # 10)) |}.

(** An edge with other metrics. *)
Definition other_edge : option FactorsEdge :=
  Some {| node := Some (metrics 1 1 2) |}.

(** What the effect returns for the radar chart in a container of 800 by
    400. *)
Definition radar_effect : DataViz.Effect Element Data :=
  {| DataViz.drawn := [radar_800_by_400]; DataViz.cleanup := Some "svg" |}.

(** A sizing element of no width. *)
Definition no_width : DataViz.SizingNode :=
  {| DataViz.clientWidth := 0; DataViz.clientHeight := 450 |}.

(** The container with both download buttons, under a scatter plot. *)
Definition both_buttons : DataVizRender.DownloadButtonsContainer :=
  {| DataVizRender.style_marginTop := Some "1rem";
     DataVizRender.first_child :=
       Some {| DataVizRender.button_onClick :=
                 DataVizRender.run_handleDownloadImage;
               DataVizRender.button_text := "Download Image" |};
     DataVizRender.second_child :=
       Some {| DataVizRender.button_onClick := DataVizRender.run_downloadData;
               DataVizRender.button_text := "Download Data" |} |}.

End MoreExamples.

(** ** Properties of the condition and of the loop *)

Module TransformFacts.
Import Transform TransformSpec.

Lemma truthy_string_Some (s : option string) (v : string) :
  JS.truthy_string s = Some v <-> s = Some v /\ v <> EmptyString.
Proof.
  unfold JS.truthy_string. destruct s as [u|].
  - destruct (String.eqb_spec u EmptyString) as [->|Hne]; split.
    + discriminate.
    + intros [Hu Hv]. injection Hu as <-. now elim Hv.
    + intros Hu. injection Hu as <-. now split.
    + intros [Hu _]. exact Hu.
  - split; [discriminate | intros [Hu _]; discriminate].
Qed.

Lemma truthy_string_present (s : option string) :
  present_nonempty s <-> exists v, JS.truthy_string s = Some v.
Proof.
  unfold present_nonempty. split; intros [v Hv]; exists v;
    now apply truthy_string_Some.
Qed.

(** Destructs the scrutinees of a chain of guards in [H], outermost
    first, and drops the branches in which the guard fails. *)
Ltac narrow H :=
  repeat match type of H with
    | match ?e with _ => _ end = _ =>
        let E := fresh "E" in destruct e eqn:E; try discriminate H
    end.

(** What the condition has established about a record when it holds. *)
Lemma check_fields (d : JordanIndustry) (c : Checked) :
  check d = Some c ->
  (industryCode d = Some (c_industryCode c) /\ c_industryCode c <> EmptyString) /\
  (title d = Some (c_title c) /\ c_title c <> EmptyString) /\
  (keywords d = Some (c_keywords c) /\ c_keywords c <> EmptyString) /\
  (description d = Some (c_description c) /\ c_description c <> EmptyString) /\
  edges_nonempty d /\
  first_node d = Some (c_node c) /\
  viability (c_node c) = Some (c_viability c) /\
  attractiveness (c_node c) = Some (c_attractiveness c) /\
  rca (c_node c) = Some (c_rca c).
Proof.
  intros H. unfold check, and_then in H. narrow H.
  injection H as <-. simpl.
  repeat match goal with
    | E : JS.truthy_string _ = Some _ |- _ => apply truthy_string_Some in E
    end.
  unfold edges_nonempty, first_node.
  match goal with E : factors d = Some _ |- _ => rewrite E end.
  match goal with E : edges _ = Some _ |- _ => rewrite E end.
  match goal with E : match JS.first ?l with _ => _ end = Some _ |- _ =>
    destruct l as [|[e0|] rest]; simpl in E; try discriminate E;
    injection E as -> end.
  repeat split; try tauto.
  eexists _, _. split; [reflexivity|]. split; [eassumption|discriminate].
Qed.

(** The condition holds exactly on the records that are well-formed for
    plotting. *)
Lemma check_plottable (d : JordanIndustry) :
  plottable d <-> exists c, check d = Some c.
Proof.
  split.
  - intros (Hc & Ht & Hk & Hd & (f & es & Hf & He & Hne) & n & Hn & Hv & Ha & Hr).
    apply truthy_string_present in Hc, Ht, Hk, Hd.
    destruct Hc as [c Hc], Ht as [t Ht], Hk as [k Hk], Hd as [s Hd].
    unfold first_node in Hn. rewrite Hf, He in Hn.
    destruct es as [|[e|] rest]; try discriminate Hn.
    destruct (viability n) as [v|] eqn:Ev; [|now elim Hv].
    destruct (attractiveness n) as [a|] eqn:Ea; [|now elim Ha].
    destruct (rca n) as [r|] eqn:Er; [|now elim Hr].
    unfold check, and_then. rewrite Hc, Ht, Hk, Hd, Hf, He. simpl.
    rewrite Hn, Ev, Ea, Er. eexists. reflexivity.
  - intros [c H]. apply check_fields in H.
    destruct H as ((Hc & Hc') & (Ht & Ht') & (Hk & Hk') & (Hd & Hd') & He & Hn & Hv & Ha & Hr).
    unfold plottable, present_nonempty.
    repeat split; eauto.
    exists (c_node c). unfold metrics_present. rewrite Hv, Ha, Hr.
    repeat split; try assumption; discriminate.
Qed.

Lemma check_not_plottable (d : JordanIndustry) :
  ~ plottable d <-> check d = None.
Proof.
  rewrite check_plottable. destruct (check d) as [c|]; split.
  - intros H. elim H. now exists c.
  - discriminate.
  - reflexivity.
  - intros _ [c H]. discriminate.
Qed.

Section WithLibraries.

Variable rgba : string -> JS.number -> string.
Variable number_to_string : JS.number -> string.
Variable World : Type.

Local Abbreviation Input := (Input World).
Local Abbreviation ScatterPlotDatum := (ScatterPlotDatum World).
Local Abbreviation State := (State World).
Local Abbreviation visit := (visit rgba number_to_string).
Local Abbreviation forEach := (forEach rgba number_to_string).
Local Abbreviation transform := (transform rgba number_to_string).
Local Abbreviation point := (point rgba number_to_string).
Local Abbreviation after := (after rgba number_to_string).
Local Abbreviation emits := (emits rgba number_to_string).
Local Abbreviation stable_filter_map :=
  (stable_filter_map rgba number_to_string).

Lemma forEach_app (input : Input) (l1 l2 : list JordanIndustry) (st : State) :
  forEach input (l1 ++ l2) st = forEach input l2 (forEach input l1 st).
Proof. unfold Transform.forEach. apply fold_left_app. Qed.

Lemma firstn_S_nth_error {A : Type} (l : list A) (k : nat) (a : A) :
  nth_error l k = Some a -> firstn (S k) l = firstn k l ++ [a].
Proof.
  revert k. induction l as [|b l IH]; intros [|k] H; try discriminate H.
  - simpl in H. injection H as ->. reflexivity.
  - simpl in H. change (b :: firstn (S k) l = b :: (firstn k l ++ [a])).
    now rewrite (IH k H).
Qed.

(** One more record is one more call of the callback. *)
Lemma after_S (input : Input) (fresh k : nat) (d : JordanIndustry) :
  nth_error (rawDatum input) k = Some d ->
  after input fresh (S k) = visit input (after input fresh k) d.
Proof.
  intros H. unfold TransformSpec.after.
  rewrite (firstn_S_nth_error _ _ H), forEach_app. reflexivity.
Qed.

Lemma after_all (input : Input) (fresh : nat) :
  transform input fresh = after input fresh (List.length (rawDatum input)).
Proof.
  unfold Transform.transform, TransformSpec.after.
  now rewrite firstn_all.
Qed.

Lemma app_one_neq {A : Type} (l : list A) (a : A) : l ++ [a] <> l.
Proof.
  intros H. apply (f_equal (@List.length A)) in H.
  rewrite length_app in H. simpl in H. lia.
Qed.

(** A point that is emitted for a record is the object built from what
    the condition narrowed. *)
Lemma emits_point (input : Input) (fresh : nat) (d : JordanIndustry)
  (p : ScatterPlotDatum) :
  emits input fresh d p ->
  exists c k, check d = Some c /\ p = point input k c.
Proof.
  intros (k & Hk & Hp). rewrite (after_S _ _ _ Hk) in Hp.
  destruct (after input fresh k) as [acc n] eqn:Est.
  unfold Transform.visit in Hp. destruct (check d) as [c|] eqn:Ec.
  - simpl in Hp. apply app_inv_head in Hp. injection Hp as Hp.
    exists c, n. now split.
  - simpl in Hp. symmetry in Hp. now apply app_one_neq in Hp.
Qed.

(** The loop is the stable filter-map, whatever it starts from. *)
Lemma forEach_stable_filter_map (input : Input) (data : list JordanIndustry)
  (acc : list ScatterPlotDatum) (fresh : nat) :
  fst (forEach input data (acc, fresh)) =
  acc ++ stable_filter_map input data fresh.
Proof.
  revert acc fresh. induction data as [|d rest IH]; intros acc fresh.
  - simpl. now rewrite app_nil_r.
  - change (forEach input (d :: rest) (acc, fresh))
      with (forEach input rest (visit input (acc, fresh) d)).
    unfold Transform.visit. simpl.
    destruct (check d) as [c|]; rewrite IH.
    + now rewrite <- app_assoc.
    + reflexivity.
Qed.

Lemma forEach_fresh (input : Input) (data : list JordanIndustry)
  (acc : list ScatterPlotDatum) (fresh : nat) :
  snd (forEach input data (acc, fresh)) =
  fresh + List.length (stable_filter_map input data fresh).
Proof.
  revert acc fresh. induction data as [|d rest IH]; intros acc fresh.
  - simpl. lia.
  - change (forEach input (d :: rest) (acc, fresh))
      with (forEach input rest (visit input (acc, fresh) d)).
    unfold Transform.visit. simpl.
    destruct (check d) as [c|]; rewrite IH; simpl; lia.
Qed.

Lemma stable_filter_map_length (input : Input) (data : list JordanIndustry)
  (fresh : nat) :
  List.length (stable_filter_map input data fresh) =
  List.length (filter included data).
Proof.
  revert fresh. induction data as [|d rest IH]; intros fresh; simpl.
  - reflexivity.
  - unfold included at 1. destruct (check d); simpl; now rewrite IH.
Qed.

Lemma stable_filter_map_labels (input : Input) (data : list JordanIndustry)
  (fresh : nat) :
  map (fun p => Some (label p)) (stable_filter_map input data fresh) =
  map title (filter included data).
Proof.
  revert fresh. induction data as [|d rest IH]; intros fresh; simpl.
  - reflexivity.
  - unfold included at 1. destruct (check d) as [c|] eqn:Ec; simpl.
    + rewrite IH. f_equal. apply check_fields in Ec.
      symmetry. apply Ec.
    + apply IH.
Qed.


Lemma stable_filter_map_equal_but_onClick (input : Input)
  (data : list JordanIndustry) (fresh fresh' : nat) :
  Forall2 equal_but_onClick
    (stable_filter_map input data fresh)
    (stable_filter_map input data fresh').
Proof.
  revert fresh fresh'.
  induction data as [|d rest IH]; intros fresh fresh'; simpl.
  - constructor.
  - destruct (check d) as [c|].
    + constructor; [|apply IH].
      unfold equal_but_onClick. simpl. repeat split.
    + apply IH.
Qed.

Lemma stable_filter_map_twice (input : Input) (data : list JordanIndustry)
  (fresh fresh' : nat) :
  fresh <= fresh' ->
  Forall2
    (fun p q =>
       equal_but_onClick p q /\
       (forall w, call (onClick p) w = call (onClick q) w) /\
       (fresh' - fresh) + fn_id (onClick p) = fn_id (onClick q))
    (stable_filter_map input data fresh)
    (stable_filter_map input data fresh').
Proof.
  intros H. revert fresh fresh' H.
  induction data as [|d rest IH]; intros fresh fresh' H; simpl.
  - constructor.
  - destruct (check d) as [c|].
    + constructor.
      * unfold equal_but_onClick, call. simpl. repeat split. lia.
      * replace (fresh' - fresh) with (S fresh' - S fresh) by lia.
        apply IH. lia.
    + now apply IH.
Qed.

Lemma after_prefix (input : Input) (fresh k : nat) :
  exists later,
    fst (transform input fresh) = fst (after input fresh k) ++ later.
Proof.
  unfold Transform.transform, TransformSpec.after.
  set (done := firstn k (rawDatum input)).
  replace (rawDatum input) with (done ++ skipn k (rawDatum input))
    by apply firstn_skipn.
  rewrite forEach_app.
  destruct (forEach input done ([], fresh)) as [acc n].
  rewrite forEach_stable_filter_map. simpl. eauto.
Qed.

(** C1: a record contributes a point to the output if and only if it is
    well-formed for plotting: its industryCode, title, keywords and
    description are present and non-empty, factors.edges is non-empty,
    and the node of the first edge has its three metrics present and
    non-null.  At the record in position [k], the array of points grows
    by exactly one point when the record is well-formed and the run is
    left as it was when it is not; what the array holds after the record
    stays at the front of the output.  The transformer is a total
    function: no input makes it fail. *)
Theorem C1_contributes_iff_plottable (input : Input) (fresh k : nat)
  (d : JordanIndustry) :
  nth_error (rawDatum input) k = Some d ->
  (plottable d <->
   exists p,
     fst (after input fresh (S k)) = fst (after input fresh k) ++ [p]) /\
  (~ plottable d <-> after input fresh (S k) = after input fresh k) /\
  (exists later,
     fst (transform input fresh) = fst (after input fresh (S k)) ++ later).
Proof.
  intros Hk. rewrite (after_S _ _ _ Hk).
  destruct (after input fresh k) as [acc n] eqn:Est.
  split; [|split].
  - rewrite check_plottable. unfold Transform.visit.
    destruct (check d) as [c|]; simpl; split.
    + intros _. eexists. reflexivity.
    + intros _. now exists c.
    + intros [c Hc]. discriminate.
    + intros [p Hp]. symmetry in Hp. now apply app_one_neq in Hp.
  - rewrite check_not_plottable. unfold Transform.visit.
    destruct (check d) as [c|]; simpl; split.
    + discriminate.
    + intros H. injection H as H _. now apply app_one_neq in H.
    + reflexivity.
    + reflexivity.
  - rewrite <- Est, <- (after_S _ _ _ Hk). apply after_prefix.
Qed.

Lemma ge_one_not_lt (r : JS.number) :
  JS.ge r one = true -> JS.lt r one = false.
Proof.
  unfold one, JS.of_Z. destruct r; simpl; try discriminate; try reflexivity.
  intros H. now apply negb_true_iff in H.
Qed.

Lemma eq_one_not_lt (r : JS.number) :
  JS.eq_num r one = true -> JS.lt r one = false.
Proof.
  unfold one, JS.of_Z. destruct r; simpl; try discriminate.
  intros H. apply Qeq_bool_iff, Qeq_alt in H. now rewrite H.
Qed.

(** C2: the fill of the point of an included record is [rgba] of the base
    colour and the alpha 0.5; the base colour is '#46899F' when the rca
    of the node of the first edge is below 1 and '#E0B04E' when it is at
    least 1; an rca equal to 1 selects '#E0B04E'. *)
Theorem C2_fill_by_rca (input : Input) (fresh : nat) (d : JordanIndustry)
  (p : ScatterPlotDatum) (n : JordanFactors) (r : JS.number) :
  emits input fresh d p ->
  first_node d = Some n ->
  rca n = Some r ->
  (JS.lt r one = true -> fill p = rgba "#46899F" half) /\
  (JS.ge r one = true -> fill p = rgba "#E0B04E" half) /\
  (JS.eq_num r one = true -> fill p = rgba "#E0B04E" half).
Proof.
  intros He Hn Hr. destruct (emits_point He) as (c & i & Hc & ->).
  apply check_fields in Hc.
  destruct Hc as (_ & _ & _ & _ & _ & Hn' & _ & _ & Hr').
  rewrite Hn in Hn'. injection Hn' as ->. rewrite Hr in Hr'.
  injection Hr' as ->. unfold Transform.point. simpl.
  split; [|split]; intros H.
  - now rewrite H.
  - now rewrite (ge_one_not_lt _ H).
  - now rewrite (eq_one_not_lt _ H).
Qed.

(** C3: the point of an included record is highlighted if and only if
    the industryCode of the record is the very string passed as the
    selected id. *)
Theorem C3_highlighted_iff_selected (input : Input) (fresh : nat)
  (d : JordanIndustry) (p : ScatterPlotDatum) :
  emits input fresh d p ->
  (highlighted p = true <-> industryCode d = Some (id input)).
Proof.
  intros He. destruct (emits_point He) as (c & i & Hc & ->).
  apply check_fields in Hc. destruct Hc as ((Hcode & _) & _).
  rewrite Hcode. unfold Transform.point. simpl.
  rewrite String.eqb_eq. split.
  - now intros ->.
  - intros H. now injection H.
Qed.

(** C4: the output is never longer than the input, and it is the stable
    filter-map of the input: one point for each record that passes the
    condition, in the order of the records, with nothing merged, dropped
    or moved.  So the output has as many points as there are records
    that pass (records with the same industryCode each have their own),
    and its labels are the titles of those records, in their order. *)
Theorem C4_stable_filter_map (input : Input) (fresh : nat) :
  List.length (fst (transform input fresh)) <=
    List.length (rawDatum input) /\
  fst (transform input fresh) =
    stable_filter_map input (rawDatum input) fresh /\
  List.length (fst (transform input fresh)) =
    List.length (filter included (rawDatum input)) /\
  map (fun p => Some (label p)) (fst (transform input fresh)) =
    map title (filter included (rawDatum input)).
Proof.
  unfold Transform.transform. rewrite forEach_stable_filter_map. simpl.
  rewrite stable_filter_map_length, stable_filter_map_labels.
  repeat split. apply filter_length_le.
Qed.

(** C9: in the tooltip of the point of an included record the label
    'Theme:' is followed by the description of the record, 'SubTheme:'
    by its keywords, 'Description:' by its title, and 'Viability:' and
    'Attractiveness:' by the x and the y of the point, which are the
    viability and the attractiveness of the node of the first edge. *)
Theorem C9_tooltip_wiring (input : Input) (fresh : nat)
  (d : JordanIndustry) (p : ScatterPlotDatum) :
  emits input fresh d p ->
  exists dsc kw ttl n,
    description d = Some dsc /\ keywords d = Some kw /\
    title d = Some ttl /\
    first_node d = Some n /\
    viability n = Some (x p) /\ attractiveness n = Some (y p) /\
    tooltipContent p =
      ("<strong>Theme:</strong> " ++ dsc ++
       "<br /><strong>SubTheme:</strong> " ++ kw ++
       "<br /><strong>Description:</strong> " ++ ttl ++
       "<br /><strong>Viability:</strong> " ++ number_to_string (x p) ++
       "<br /><strong>Attractiveness:</strong> " ++
       number_to_string (y p))%string.
Proof.
  intros He. destruct (emits_point He) as (c & i & Hc & ->).
  apply check_fields in Hc.
  destruct Hc as (_ & (Ht & _) & (Hk & _) & (Hd & _) & _ & Hn & Hv & Ha & _).
  exists (c_description c), (c_keywords c), (c_title c), (c_node c).
  simpl. repeat split; assumption.
Qed.

(** C10: two calls of the transformer with the same input give two lists
    of points that are equal, point by point, in every field but
    [onClick]: so it is for the second of two calls made one after the
    other, and for any two calls, whatever function objects they
    make. *)
Theorem C10_transform_twice (input : Input) (fresh : nat) :
  Forall2 equal_but_onClick
    (fst (transform input fresh))
    (fst (transform input (snd (transform input fresh)))) /\
  forall fresh',
    Forall2 equal_but_onClick
      (fst (transform input fresh)) (fst (transform input fresh')).
Proof.
  assert (H : forall fresh',
             Forall2 equal_but_onClick
               (fst (transform input fresh))
               (fst (transform input fresh'))).
  { intros fresh'. unfold Transform.transform.
    rewrite !forEach_stable_filter_map. simpl.
    apply stable_filter_map_equal_but_onClick. }
  split; [apply H | exact H].
Qed.

(** The callbacks of the two calls do the same when called, and none of
    the second call is a function object of the first. *)
Lemma transform_twice_callbacks (input : Input) (fresh : nat) :
  Forall2
    (fun p q =>
       (forall w, call (onClick p) w = call (onClick q) w) /\
       fn_id (onClick p) < fn_id (onClick q))
    (fst (transform input fresh))
    (fst (transform input (snd (transform input fresh)))).
Proof.
  unfold Transform.transform.
  rewrite forEach_fresh, !forEach_stable_filter_map. simpl.
  generalize
    (stable_filter_map_twice input (rawDatum input)
       (Nat.le_add_r fresh
          (List.length (stable_filter_map input (rawDatum input) fresh)))).
  destruct (stable_filter_map input (rawDatum input) fresh)
    as [|p0 out] eqn:E; intros H2.
  - simpl. rewrite Nat.add_0_r, E. constructor.
  - eapply Forall2_impl; [|exact H2].
    intros p q (_ & Hcall & Hid). split; [exact Hcall|].
    simpl in Hid. lia.
Qed.

End WithLibraries.

End TransformFacts.

(** ** Properties of the chart host *)

Module DataVizFacts.
Import DataViz DataVizSpec.

Section Host.

Variables Element Data : Type.

Local Abbreviation Refs := (Refs Element).
Local Abbreviation Props := (Props Data).
Local Abbreviation Draw := (Draw Element Data).
Local Abbreviation Effect := (Effect Element Data).

(** The two branches of the radar sizing pick the smaller side. *)
Lemma radar_side (w h : Z) :
  (if Z.gtb w h then (h, h) else (w, w)) = (Z.min w h, Z.min w h).
Proof.
  destruct (Z.gtb_spec w h).
  - now rewrite Z.min_r by lia.
  - now rewrite Z.min_l by lia.
Qed.

Lemma not_tag (tag other : VizType) :
  tag <> other -> String.eqb tag other = false.
Proof. intros H. now apply String.eqb_neq. Qed.

(** What the effect draws, tag by tag, once the three elements are
    attached. *)
Lemma effect_scatter (refs : Refs) (props : Props)
  (svgNode tooltipNode : Element) (sizingNode : SizingNode) :
  svgNodeRef refs = Some svgNode ->
  sizingNodeRef refs = Some sizingNode ->
  tooltipNodeRef refs = Some tooltipNode ->
  vizType props = ScatterPlot ->
  effect refs props =
  Returned
    {| drawn :=
         [createScatterPlot (select svgNode) (select tooltipNode)
            (data props) (container_box sizingNode) (axisLabels props)];
       cleanup := Some svgNode |}.
Proof.
  intros Hs Hz Ht Hv. unfold effect. now rewrite Hs, Hz, Ht, Hv.
Qed.

Lemma effect_bar (refs : Refs) (props : Props)
  (svgNode tooltipNode : Element) (sizingNode : SizingNode) :
  svgNodeRef refs = Some svgNode ->
  sizingNodeRef refs = Some sizingNode ->
  tooltipNodeRef refs = Some tooltipNode ->
  vizType props = BarChart ->
  effect refs props =
  Returned
    {| drawn :=
         [createBarChart (select svgNode) (select tooltipNode)
            (data props) (container_box sizingNode) (axisLabels props)
            (overlayData props)];
       cleanup := Some svgNode |}.
Proof.
  intros Hs Hz Ht Hv. unfold effect. now rewrite Hs, Hz, Ht, Hv.
Qed.

Lemma effect_radar (refs : Refs) (props : Props)
  (svgNode tooltipNode : Element) (sizingNode : SizingNode) (c : Color) :
  svgNodeRef refs = Some svgNode ->
  sizingNodeRef refs = Some sizingNode ->
  tooltipNodeRef refs = Some tooltipNode ->
  vizType props = RadarChart ->
  color props = Some c ->
  effect refs props =
  Returned
    {| drawn :=
         [createRadarChart (select svgNode) (select tooltipNode)
            (data props)
            {| options_width := width (min_square sizingNode);
               options_height := height (min_square sizingNode);
               options_color := scaleOrdinal_range [start c; end_ c];
               options_maxValue := maxValue props |}];
       cleanup := Some svgNode |}.
Proof.
  intros Hs Hz Ht Hv Hc. unfold effect. rewrite Hs, Hz, Ht, Hv, Hc.
  simpl. now rewrite radar_side.
Qed.

(** Every drawing call of the effect has the size of its chart type. *)
Lemma effect_drawn_size (refs : Refs) (props : Props) (e : Effect)
  (d : Draw) :
  effect refs props = Returned e ->
  In d (drawn e) ->
  exists sizingNode,
    sizingNodeRef refs = Some sizingNode /\
    recognized (vizType props) /\
    drawn_size d =
      if String.eqb (vizType props) RadarChart
      then min_square sizingNode else container_box sizingNode.
Proof.
  unfold effect, recognized.
  destruct (svgNodeRef refs) as [svgNode|];
    [|intros H; injection H as <-; intros []].
  destruct (sizingNodeRef refs) as [sizingNode|];
    [|intros H; injection H as <-; intros []].
  destruct (tooltipNodeRef refs) as [tooltipNode|];
    [|intros H; injection H as <-; intros []].
  destruct (String.eqb_spec (vizType props) ScatterPlot) as [Hs|Hs].
  { intros H. injection H as <-. intros [<-|[]].
    exists sizingNode. rewrite Hs. simpl. auto. }
  destruct (String.eqb_spec (vizType props) BarChart) as [Hb|Hb].
  { intros H. injection H as <-. intros [<-|[]].
    exists sizingNode. rewrite Hb. simpl. auto. }
  destruct (String.eqb_spec (vizType props) RadarChart) as [Hr|Hr].
  { rewrite radar_side. destruct (color props) as [c|]; [|discriminate].
    intros H. injection H as <-. intros [<-|[]].
    exists sizingNode. simpl. auto. }
  intros H. injection H as <-. intros [].
Qed.

(** The sizes of the image request, by chart type. *)
Lemma export_radar (refs : Refs) (props : Props) (sizingNode : SizingNode) :
  sizingNodeRef refs = Some sizingNode ->
  vizType props = RadarChart ->
  image_width (handleDownloadImage refs props) =
    Some (3 * width (min_square sizingNode))%Z /\
  image_height (handleDownloadImage refs props) =
    Some (3 * height (min_square sizingNode))%Z.
Proof.
  intros Hz Hv. unfold handleDownloadImage, highResMultiplier.
  rewrite Hz, Hv, String.eqb_refl.
  unfold min_square. cbn [width height].
  destruct (Z.gtb_spec (clientWidth sizingNode) (clientHeight sizingNode));
    cbn [image_width image_height];
    [rewrite Z.min_r by lia | rewrite Z.min_l by lia];
    split; f_equal; lia.
Qed.

Lemma export_box (refs : Refs) (props : Props) (sizingNode : SizingNode) :
  sizingNodeRef refs = Some sizingNode ->
  vizType props <> RadarChart ->
  image_width (handleDownloadImage refs props) =
    (if Z.eqb (clientWidth sizingNode) 0 then None
     else Some (3 * clientWidth sizingNode)%Z) /\
  image_height (handleDownloadImage refs props) =
    (if Z.eqb (clientHeight sizingNode) 0 then None
     else Some (3 * clientHeight sizingNode)%Z).
Proof.
  intros Hz Hv. unfold handleDownloadImage, highResMultiplier, JS.truthy_Z.
  rewrite Hz, (not_tag Hv). cbn [image_width image_height].
  split.
  - destruct (Z.eqb (clientWidth sizingNode) 0); cbn [negb];
      [reflexivity | f_equal; lia].
  - destruct (Z.eqb (clientHeight sizingNode) 0); cbn [negb];
      [reflexivity | f_equal; lia].
Qed.

(** With no sizing element attached the request has no size, whatever
    the chart type. *)
Lemma export_unattached (refs : Refs) (props : Props) :
  sizingNodeRef refs = None ->
  image_width (handleDownloadImage refs props) = None /\
  image_height (handleDownloadImage refs props) = None.
Proof.
  intros Hz. unfold handleDownloadImage. rewrite Hz.
  destruct (String.eqb (vizType props) RadarChart); simpl; now split.
Qed.

(** C5: when the chart host draws a radar chart, the width and the
    height it passes to the radar primitive are both the smaller of the
    width and the height of the sizing element. *)
Theorem C5_radar_square (refs : Refs) (props : Props)
  (svgNode tooltipNode : Element) (sizingNode : SizingNode) (c : Color) :
  svgNodeRef refs = Some svgNode ->
  sizingNodeRef refs = Some sizingNode ->
  tooltipNodeRef refs = Some tooltipNode ->
  vizType props = RadarChart ->
  color props = Some c ->
  effect refs props =
  Returned
    {| drawn :=
         [createRadarChart (select svgNode) (select tooltipNode)
            (data props)
            {| options_width :=
                 Z.min (clientWidth sizingNode) (clientHeight sizingNode);
               options_height :=
                 Z.min (clientWidth sizingNode) (clientHeight sizingNode);
               options_color := scaleOrdinal_range [start c; end_ c];
               options_maxValue := maxValue props |}];
       cleanup := Some svgNode |}.
Proof. intros Hs Hz Ht Hv Hc. exact (@effect_radar refs props _ _ _ _ Hs Hz Ht Hv Hc). Qed.

(** C6: when the sizing element has a non-zero width and a non-zero
    height, the width and the height of the image request are 3 times
    the width and the height the effect gives its drawing call, which
    are those of the sizing element for a scatter plot and a bar chart
    and those of the square on its smaller side for a radar chart. *)
Theorem C6_export_three_times (refs : Refs) (props : Props)
  (sizingNode : SizingNode) (e : Effect) (d : Draw) :
  sizingNodeRef refs = Some sizingNode ->
  clientWidth sizingNode <> 0%Z ->
  clientHeight sizingNode <> 0%Z ->
  effect refs props = Returned e ->
  In d (drawn e) ->
  image_width (handleDownloadImage refs props) =
    Some (3 * width (drawn_size d))%Z /\
  image_height (handleDownloadImage refs props) =
    Some (3 * height (drawn_size d))%Z /\
  drawn_size d =
    (if String.eqb (vizType props) RadarChart
     then min_square sizingNode else container_box sizingNode).
Proof.
  intros Hz Hw Hh He Hd.
  destruct (@effect_drawn_size refs props e d He Hd) as (n & Hn & _ & Hsize).
  rewrite Hz in Hn. injection Hn as <-. rewrite Hsize.
  destruct (String.eqb_spec (vizType props) RadarChart) as [Hr|Hr].
  - destruct (@export_radar refs props sizingNode Hz Hr) as [-> ->]. auto.
  - destruct (@export_box refs props sizingNode Hz Hr) as [-> ->].
    apply Z.eqb_neq in Hw, Hh. rewrite Hw, Hh. auto.
Qed.

(** C8: when the tag of the chart is none of the three of [VizType], the
    effect returns without an error and has called none of the three
    drawing primitives. *)
Theorem C8_unrecognized_tag_draws_nothing (refs : Refs) (props : Props) :
  ~ recognized (vizType props) ->
  exists e, effect refs props = Returned e /\ drawn e = [].
Proof.
  unfold recognized. intros H. unfold effect.
  destruct (svgNodeRef refs), (sizingNodeRef refs), (tooltipNodeRef refs);
    try (eexists; split; reflexivity).
  rewrite !not_tag by tauto. eexists; split; reflexivity.
Qed.

End Host.

End DataVizFacts.

(** ** The scenarios of the specification, and instances of the theorems *)

Module Scenarios.
Import Transform TransformSpec TransformFacts.
Import DataViz DataVizSpec DataVizFacts.
Import Example.

(** One well-formed record, selected: one point, below average. *)
Example scenario_tech : run [tech] "A1" = [tech_point].
Proof. reflexivity. Qed.

(** The same record with an rca of 1: the other base colour. *)
Example scenario_at_average :
  map (@fill World) (run [tech_at_average] "A1") = [css "#E0B04E" half].
Proof. reflexivity. Qed.

(** A record without description: no point. *)
Example scenario_without_description :
  run [tech_without_description] "A1" = [].
Proof. reflexivity. Qed.

(** A metric of zero is a metric. *)
Example scenario_zero_metrics :
  map (fun p => (x p, y p))
    (run [record "A1" "Tech" "soft" "desc" (metrics 0 0 0)] "A1") =
  [(JS.Finite 0, JS.Finite 0)].
Proof. reflexivity. Qed.

(** Two records with one industryCode: two points. *)
Example scenario_duplicates :
  map (fun p => (label p, fn_id (onClick p))) (run [tech; tech] "A1") =
  [("Tech", 0); ("Tech", 1)].
Proof. reflexivity. Qed.

(** The comparison with the selected id tells the case of the letters. *)
Example scenario_case_sensitive :
  map (@highlighted World) (run [tech] "a1") = [false].
Proof. reflexivity. Qed.

(** A skipped record leaves the order of the others as it was. *)
Example scenario_order :
  map (@label World)
    (run [record "B" "Second" "k" "d" (metrics 1 1 2);
          tech_without_description;
          record "A" "First" "k" "d" (metrics 1 1 2)] "A") =
  ["Second"; "First"].
Proof. reflexivity. Qed.

Lemma C1_tech_contributes :
  plottable tech <->
  exists p,
    fst (after css show (input_of [tech] "A1") 0 1) =
    fst (after css show (input_of [tech] "A1") 0 0) ++ [p].
Proof.
  refine (proj1 (@C1_contributes_iff_plottable css show World
                   (input_of [tech] "A1") 0 0 tech _)).
  reflexivity.
Defined.

Lemma C2_tech_below_average : fill tech_point = css "#46899F" half.
Proof.
  refine (proj1 (@C2_fill_by_rca css show World (input_of [tech] "A1") 0
                   tech tech_point (metrics 5 7 (8 # 10))
                   (JS.Finite (8 # 10)) _ _ _) _).
  - exists 0. split; reflexivity.
  - reflexivity.
  - reflexivity.
  - reflexivity.
Defined.

Lemma C3_tech_selected :
  highlighted tech_point = true <-> industryCode tech = Some "A1".
Proof.
  refine (@C3_highlighted_iff_selected css show World
            (input_of [tech] "A1") 0 tech tech_point _).
  exists 0. split; reflexivity.
Defined.

Lemma C9_tech_tooltip :
  exists dsc kw ttl n,
    description tech = Some dsc /\ keywords tech = Some kw /\
    title tech = Some ttl /\
    first_node tech = Some n /\
    viability n = Some (x tech_point) /\
    attractiveness n = Some (y tech_point) /\
    tooltipContent tech_point =
      ("<strong>Theme:</strong> " ++ dsc ++
       "<br /><strong>SubTheme:</strong> " ++ kw ++
       "<br /><strong>Description:</strong> " ++ ttl ++
       "<br /><strong>Viability:</strong> " ++ show (x tech_point) ++
       "<br /><strong>Attractiveness:</strong> " ++
       show (y tech_point))%string.
Proof.
  refine (@C9_tooltip_wiring css show World (input_of [tech] "A1") 0
            tech tech_point _).
  exists 0. split; reflexivity.
Defined.

Lemma C5_radar_800_by_400 :
  effect (mounted 800 400) (chart RadarChart) =
  Returned {| drawn := [radar_800_by_400]; cleanup := Some "svg" |}.
Proof.
  refine (@C5_radar_square Element Data (mounted 800 400) (chart RadarChart)
            "svg" "tooltip"
            {| clientWidth := 800; clientHeight := 400 |} gradient
            _ _ _ _ _); reflexivity.
Defined.

Lemma C6_radar_800_by_400_export :
  image_width (handleDownloadImage (mounted 800 400) (chart RadarChart)) =
    Some 1200%Z /\
  image_height (handleDownloadImage (mounted 800 400) (chart RadarChart)) =
    Some 1200%Z /\
  drawn_size radar_800_by_400 = {| width := 400; height := 400 |}.
Proof.
  refine (@C6_export_three_times Element Data (mounted 800 400)
            (chart RadarChart)
            {| clientWidth := 800; clientHeight := 400 |}
            {| drawn := [radar_800_by_400]; cleanup := Some "svg" |}
            radar_800_by_400 _ _ _ _ _).
  - reflexivity.
  - simpl. lia.
  - simpl. lia.
  - reflexivity.
  - simpl. left. reflexivity.
Defined.

Lemma C8_pie_chart_draws_nothing :
  exists e,
    effect (mounted 800 400) (chart "PieChart") = Returned e /\
    drawn e = [].
Proof.
  refine (@C8_unrecognized_tag_draws_nothing Element Data
            (mounted 800 400) (chart "PieChart") _).
  simpl. intros [H|[H|H]]; discriminate H.
Defined.

(** C7: for a radar chart whose sizing element is attached and has a width
    of zero, the image request carries the numbers 0 and 0 as its width
    and height: they are computed, not left undefined. *)
Theorem C7_radar_zero_width_exports_zero :
  handleDownloadImage (mounted 0 450) (chart RadarChart) =
  {| image_svg := Some "svg";
     image_width := Some 0%Z;
     image_height := Some 0%Z;
     image_title := "chart" |}.
Proof. reflexivity. Qed.

(** The same container under a scatter plot: the width is left undefined
    and the height is computed. *)
Example scatter_zero_width_export :
  handleDownloadImage (mounted 0 450) (chart ScatterPlot) =
  {| image_svg := Some "svg";
     image_width := None;
     image_height := Some 1350%Z;
     image_title := "chart" |}.
Proof. reflexivity. Qed.

(** No sizing element: no size, for a radar chart too. *)
Example radar_unmounted_export :
  handleDownloadImage unmounted (chart RadarChart) =
  {| image_svg := None;
     image_width := None;
     image_height := None;
     image_title := "chart" |}.
Proof. reflexivity. Qed.

End Scenarios.

(** ** More properties of the transformer *)

Module TransformMore.
Import Transform TransformSpec TransformNotions TransformFacts.

(** Facts on [filter] that the counting arguments use. *)
Lemma filter_length_all {A : Type} (f : A -> bool) (l : list A) :
  List.length (filter f l) = List.length l <-> Forall (fun a => f a = true) l.
Proof.
  induction l as [|a l IH]; simpl.
  - split; [constructor | reflexivity].
  - destruct (f a) eqn:Ea; simpl; split.
    + intros H. constructor; [exact Ea | apply IH; lia].
    + intros H. inversion H; subst. f_equal. now apply IH.
    + intros H. pose proof (filter_length_le f l). lia.
    + intros H. inversion H; subst. congruence.
Qed.

Lemma filter_nil_iff {A : Type} (f : A -> bool) (l : list A) :
  filter f l = [] <-> Forall (fun a => f a = false) l.
Proof.
  induction l as [|a l IH]; simpl.
  - split; [constructor | reflexivity].
  - destruct (f a) eqn:Ea; split.
    + discriminate.
    + intros H. inversion H; subst. congruence.
    + intros H. constructor; [exact Ea | now apply IH].
    + intros H. inversion H; subst. now apply IH.
Qed.

Lemma included_plottable (d : JordanIndustry) :
  included d = true <-> plottable d.
Proof.
  rewrite check_plottable. unfold included.
  destruct (check d) as [c|]; split; try discriminate.
  - intros _. now exists c.
  - reflexivity.
  - intros [c H]. discriminate.
Qed.

Lemma included_not_plottable (d : JordanIndustry) :
  included d = false <-> ~ plottable d.
Proof.
  rewrite <- included_plottable. destruct (included d); split; congruence.
Qed.

Section WithLibraries.

Variable rgba : string -> JS.number -> string.
Variable number_to_string : JS.number -> string.
Variable World : Type.

Local Abbreviation Input := (Input World).
Local Abbreviation ScatterPlotDatum := (ScatterPlotDatum World).
Local Abbreviation State := (State World).
Local Abbreviation visit := (visit rgba number_to_string).
Local Abbreviation forEach := (forEach rgba number_to_string).
Local Abbreviation transform := (transform rgba number_to_string).
Local Abbreviation point := (point rgba number_to_string).
Local Abbreviation after := (after rgba number_to_string).
Local Abbreviation emits := (emits rgba number_to_string).
Local Abbreviation stable_filter_map :=
  (stable_filter_map rgba number_to_string).

(** The loop reads the input only for the selected id and the callback. *)
Lemma point_input (i1 i2 : Input) (fresh : nat) (c : Checked) :
  id i1 = id i2 ->
  setSelectedIndustry i1 = setSelectedIndustry i2 ->
  point i1 fresh c = point i2 fresh c.
Proof. intros Hid Hset. unfold Transform.point. now rewrite Hid, Hset. Qed.

Lemma stable_filter_map_input (i1 i2 : Input) (data : list JordanIndustry)
  (fresh : nat) :
  id i1 = id i2 ->
  setSelectedIndustry i1 = setSelectedIndustry i2 ->
  stable_filter_map i1 data fresh = stable_filter_map i2 data fresh.
Proof.
  intros Hid Hset. revert fresh.
  induction data as [|d rest IH]; intros fresh; simpl.
  - reflexivity.
  - destruct (check d) as [c|]; [|apply IH].
    now rewrite IH, (@point_input i1 i2 fresh c Hid Hset).
Qed.

Lemma transform_stable_filter_map (input : Input) (fresh : nat) :
  transform input fresh =
  (stable_filter_map input (rawDatum input) fresh,
   fresh + List.length (stable_filter_map input (rawDatum input) fresh)).
Proof.
  unfold Transform.transform.
  rewrite (surjective_pairing (forEach input (rawDatum input) ([], fresh))).
  now rewrite forEach_stable_filter_map, forEach_fresh.
Qed.

Lemma stable_filter_map_app (input : Input) (l1 l2 : list JordanIndustry)
  (fresh : nat) :
  stable_filter_map input (l1 ++ l2) fresh =
  stable_filter_map input l1 fresh ++
  stable_filter_map input l2
    (fresh + List.length (stable_filter_map input l1 fresh)).
Proof.
  revert fresh. induction l1 as [|d rest IH]; intros fresh; simpl.
  - now rewrite Nat.add_0_r.
  - destruct (check d) as [c|]; rewrite IH; simpl.
    + now rewrite Nat.add_succ_r.
    + reflexivity.
Qed.

(** X1: the point of an included record has the title of the record as its
    label, the viability and the attractiveness of the node of the first edge
    as its x and y, unchanged, and is marked as tooltip-only. *)
Theorem point_carries_record (input : Input) (fresh : nat)
  (d : JordanIndustry) (p : ScatterPlotDatum) :
  emits input fresh d p ->
  exists n,
    first_node d = Some n /\
    title d = Some (label p) /\
    viability n = Some (x p) /\
    attractiveness n = Some (y p) /\
    tooltipContentOnly p = true.
Proof.
  intros He. destruct (emits_point He) as (c & i & Hc & ->).
  apply check_fields in Hc.
  destruct Hc as (_ & (Ht & _) & _ & _ & _ & Hn & Hv & Ha & _).
  exists (c_node c). simpl. repeat split; assumption.
Qed.

(** X2: calling the onClick of the point of an included record calls the
    selection callback of the input with the industryCode of the record as
    value and its title as label. *)
Theorem onClick_selects_record (input : Input) (fresh : nat)
  (d : JordanIndustry) (p : ScatterPlotDatum) :
  emits input fresh d p ->
  exists code ttl,
    industryCode d = Some code /\
    title d = Some ttl /\
    forall w,
      call (onClick p) w =
      setSelectedIndustry input
        {| TreeNode.value := code; TreeNode.label := ttl |} w.
Proof.
  intros He. destruct (emits_point He) as (c & i & Hc & ->).
  apply check_fields in Hc. destruct Hc as ((Hcode & _) & (Ht & _) & _).
  exists (c_industryCode c), (c_title c). repeat split; assumption.
Qed.

(** X3: the fill of a point is [rgba] at alpha 0.5 of one of the two
    colours, and it is '#E0B04E' whenever [rca < 1] is false, which includes
    an rca that compares with nothing. *)
Theorem fill_is_one_of_two (input : Input) (fresh : nat)
  (d : JordanIndustry) (p : ScatterPlotDatum) :
  emits input fresh d p ->
  (fill p = rgba "#46899F" half \/ fill p = rgba "#E0B04E" half) /\
  (forall n r,
     first_node d = Some n -> rca n = Some r -> JS.lt r one = false ->
     fill p = rgba "#E0B04E" half).
Proof.
  intros He. destruct (emits_point He) as (c & i & Hc & ->).
  apply check_fields in Hc.
  destruct Hc as (_ & _ & _ & _ & _ & Hn & _ & _ & Hr).
  unfold Transform.point. simpl. split.
  - destruct (JS.lt (c_rca c) one); auto.
  - intros n r Hn' Hr' Hlt. rewrite Hn in Hn'. injection Hn' as <-.
    rewrite Hr in Hr'. injection Hr' as <-. now rewrite Hlt.
Qed.

(** X4: transforming the records [l1 ++ l2] gives the points of [l1]
    followed by the points of [l2], the second batch being transformed after
    the first. *)
Theorem transform_app (input : Input) (l1 l2 : list JordanIndustry)
  (fresh : nat) :
  transform (with_rawDatum input (l1 ++ l2)) fresh =
  (fst (transform (with_rawDatum input l1) fresh) ++
   fst (transform (with_rawDatum input l2)
          (snd (transform (with_rawDatum input l1) fresh))),
   snd (transform (with_rawDatum input l2)
          (snd (transform (with_rawDatum input l1) fresh)))).
Proof.
  rewrite !transform_stable_filter_map. simpl.
  rewrite (@stable_filter_map_input (with_rawDatum input (l1 ++ l2)) input)
    by reflexivity.
  rewrite (@stable_filter_map_input (with_rawDatum input l1) input)
    by reflexivity.
  rewrite (@stable_filter_map_input (with_rawDatum input l2) input)
    by reflexivity.
  rewrite stable_filter_map_app, length_app. f_equal. lia.
Qed.


(** X6: the selected id decides nothing but the highlighted flags: with
    another selected id the call gives the same number of points, equal one
    by one in every other field, and makes as many function objects. *)
Theorem selected_id_only_highlights (input : Input) (selected : string)
  (fresh : nat) :
  Forall2 equal_but_highlighted
    (fst (transform input fresh))
    (fst (transform (with_id input selected) fresh)) /\
  snd (transform input fresh) = snd (transform (with_id input selected) fresh).
Proof.
  rewrite !transform_stable_filter_map. simpl.
  assert (H : forall data k,
             Forall2 equal_but_highlighted
               (stable_filter_map input data k)
               (stable_filter_map (with_id input selected) data k)).
  { induction data as [|d rest IH]; intros k; simpl.
    - constructor.
    - destruct (check d) as [c|]; [|apply IH].
      constructor; [|apply IH].
      unfold equal_but_highlighted. simpl. repeat split. }
  split; [apply H|].
  f_equal. exact (Forall2_length (H (rawDatum input) fresh)).
Qed.

Lemma highlighted_source (input : Input) (data : list JordanIndustry)
  (fresh : nat) (p : ScatterPlotDatum) :
  In p (stable_filter_map input data fresh) ->
  highlighted p = true ->
  In (Some (id input)) (map industryCode (filter included data)).
Proof.
  revert fresh. induction data as [|d rest IH]; intros fresh; simpl.
  - intros [].
  - unfold included at 1. destruct (check d) as [c|] eqn:Ec.
    + intros [<-|Hin] Hh.
      * left. apply check_fields in Ec. destruct Ec as ((Hcode & _) & _).
        simpl in Hh. apply String.eqb_eq in Hh. now rewrite Hcode, Hh.
      * right. exact (IH _ Hin Hh).
    + apply IH.
Qed.

(** X7: when the included records have pairwise different industryCodes, at
    most one point is highlighted. *)
Theorem at_most_one_highlighted (input : Input) (fresh : nat) :
  NoDup (map industryCode (filter included (rawDatum input))) ->
  List.length (filter (@highlighted World) (fst (transform input fresh))) <= 1.
Proof.
  rewrite transform_stable_filter_map. simpl.
  generalize (rawDatum input) as data. intros data. revert fresh.
  induction data as [|d rest IH]; intros fresh; simpl.
  - lia.
  - unfold included at 1. destruct (check d) as [c|] eqn:Ec; [|apply IH].
    simpl. intros Hnd. inversion Hnd as [|code codes Hnotin Hnd']; subst.
    destruct (String.eqb_spec (c_industryCode c) (id input)) as [Heq|Hne].
    + simpl.
      destruct (filter (@highlighted World)
                  (stable_filter_map input rest (S fresh))) as [|q qs] eqn:Ef.
      * simpl. lia.
      * exfalso. apply Hnotin.
        assert (Hq : In q (filter (@highlighted World)
                             (stable_filter_map input rest (S fresh)))).
        { rewrite Ef. now left. }
        apply filter_In in Hq. destruct Hq as [Hin Hh].
        apply check_fields in Ec. destruct Ec as ((Hcode & _) & _).
        rewrite Hcode, Heq. exact (@highlighted_source input rest (S fresh) q Hin Hh).
    + now apply IH.
Qed.

(** X8: the output is as long as the input exactly when every record is
    well-formed for plotting, and empty exactly when none is. *)
Theorem nothing_dropped_iff_all_plottable (input : Input) (fresh : nat) :
  (List.length (fst (transform input fresh)) = List.length (rawDatum input)
   <-> Forall plottable (rawDatum input)) /\
  (fst (transform input fresh) = []
   <-> Forall (fun d => ~ plottable d) (rawDatum input)).
Proof.
  rewrite transform_stable_filter_map. simpl. split.
  - rewrite stable_filter_map_length, filter_length_all.
    split; apply Forall_impl; intros d; apply included_plottable.
  - rewrite <- length_zero_iff_nil, stable_filter_map_length,
      length_zero_iff_nil, filter_nil_iff.
    split; apply Forall_impl; intros d; apply included_not_plottable.
Qed.

Lemma after_emitted (input : Input) (fresh k : nat) (p : ScatterPlotDatum) :
  k <= List.length (rawDatum input) ->
  In p (fst (after input fresh k)) ->
  exists d, emits input fresh d p.
Proof.
  induction k as [|k IH]; intros Hk Hin.
  - destruct Hin.
  - destruct (nth_error (rawDatum input) k) as [d|] eqn:Ed.
    2:{ apply nth_error_None in Ed. lia. }
    pose proof (after_S rgba number_to_string input fresh k Ed) as HS.
    destruct (after input fresh k) as [acc n] eqn:Est.
    unfold Transform.visit in HS. destruct (check d) as [c|].
    + rewrite HS in Hin. simpl in Hin. apply in_app_or in Hin.
      destruct Hin as [Hin|[<-|[]]].
      * apply IH; [lia | exact Hin].
      * exists d, k. split; [exact Ed|]. now rewrite HS, Est.
    + rewrite HS in Hin. apply IH; [lia | exact Hin].
Qed.

(** X9: the points of the output are exactly the points emitted for the
    records of the input. *)
Theorem output_is_what_is_emitted (input : Input) (fresh : nat)
  (p : ScatterPlotDatum) :
  In p (fst (transform input fresh)) <-> exists d, emits input fresh d p.
Proof.
  split.
  - rewrite after_all. apply after_emitted. lia.
  - intros (d & k & _ & Hp).
    destruct (after_prefix rgba number_to_string input fresh (S k))
      as [later ->].
    rewrite Hp. apply in_or_app. left. apply in_or_app. right. now left.
Qed.

(** X10: only the first edge of the factors counts: the edges after it
    never change what a record gives, and a record whose list of edges is
    empty or starts with [null] gives no point, whatever follows. *)
Theorem only_first_edge_counts (input : Input) (st : State)
  (d : JordanIndustry) (e : option FactorsEdge)
  (es es' : list (option FactorsEdge)) :
  visit input st (with_edges d (e :: es)) =
    visit input st (with_edges d (e :: es')) /\
  visit input st (with_edges d (None :: es)) = st /\
  visit input st (with_edges d []) = st.
Proof.
  assert (Hc : forall l, check (with_edges d (e :: l)) =
                         check (with_edges d [e])).
  { intros l. unfold check, and_then, with_edges. simpl.
    repeat match goal with
      | |- match ?s with _ => _ end = _ => destruct s; try reflexivity
      end. }
  assert (Hn : forall l, l = [] \/ (exists t, l = None :: t) ->
                         check (with_edges d l) = None).
  { intros l Hl. unfold check, and_then, with_edges.
    destruct Hl as [->|[t ->]]; simpl;
      repeat match goal with
        | |- match ?s with _ => _ end = _ => destruct s; try reflexivity
        end. }
  destruct st as [acc n]. unfold Transform.visit.
  rewrite (Hn (None :: es)), (Hn []) by eauto.
  rewrite (Hc es), (Hc es'). auto.
Qed.

End WithLibraries.

End TransformMore.

(** ** More properties of the chart host *)

Module DataVizMore.
Import DataViz DataVizSpec DataVizNotions DataVizRender DataVizFacts.

Section Host.

Variables Element Data : Type.

Local Abbreviation Refs := (Refs Element).
Local Abbreviation Props := (Props Data).
Local Abbreviation Draw := (Draw Element Data).
Local Abbreviation Effect := (Effect Element Data).

Lemma attached_refs (refs : Refs) :
  attached refs <->
  exists svgNode sizingNode tooltipNode,
    svgNodeRef refs = Some svgNode /\
    sizingNodeRef refs = Some sizingNode /\
    tooltipNodeRef refs = Some tooltipNode.
Proof.
  unfold attached. split.
  - intros (Hs & Hz & Ht).
    destruct (svgNodeRef refs) as [s|]; [|now elim Hs].
    destruct (sizingNodeRef refs) as [z|]; [|now elim Hz].
    destruct (tooltipNodeRef refs) as [t|]; [|now elim Ht].
    now exists s, z, t.
  - intros (s & z & t & -> & -> & ->). repeat split; discriminate.
Qed.

Lemma recognized_tags (tag : VizType) :
  recognized tag <->
  (String.eqb tag ScatterPlot || String.eqb tag BarChart
   || String.eqb tag RadarChart) = true.
Proof.
  unfold recognized. rewrite !orb_true_iff, !String.eqb_eq. tauto.
Qed.

(** X11: while any of the three references is unattached the effect does
    nothing at all, whatever the properties are: it draws nothing, throws
    nothing, and its clean-up has nothing to empty. *)
Theorem effect_waits_for_references (refs : Refs) (props : Props) :
  svgNodeRef refs = None \/ sizingNodeRef refs = None \/
  tooltipNodeRef refs = None ->
  effect refs props = Returned {| drawn := []; cleanup := None |}.
Proof.
  unfold effect. intros [H|[H|H]]; rewrite H.
  - reflexivity.
  - now destruct (svgNodeRef refs).
  - now destruct (svgNodeRef refs), (sizingNodeRef refs).
Qed.

(** X12: for a scatter plot the effect makes the one call
    [createScatterPlot], with the selections of the svg and tooltip
    elements, the data and the axis labels of the properties as they are,
    and the width and height of the sizing element as the size. *)
Theorem scatter_plot_fills_the_container (refs : Refs) (props : Props)
  (svgNode tooltipNode : Element) (sizingNode : SizingNode) :
  svgNodeRef refs = Some svgNode ->
  sizingNodeRef refs = Some sizingNode ->
  tooltipNodeRef refs = Some tooltipNode ->
  vizType props = ScatterPlot ->
  effect refs props =
  Returned
    {| drawn :=
         [createScatterPlot (select svgNode) (select tooltipNode)
            (data props)
            {| width := clientWidth sizingNode;
               height := clientHeight sizingNode |}
            (axisLabels props)];
       cleanup := Some svgNode |}.
Proof.
  intros Hs Hz Ht Hv. exact (effect_scatter refs props Hs Hz Ht Hv).
Qed.

(** X13: for a bar chart the effect makes the one call [createBarChart],
    with the data, the axis labels and the overlay data of the properties as
    they are, and the width and height of the sizing element as the size. *)
Theorem bar_chart_fills_the_container (refs : Refs) (props : Props)
  (svgNode tooltipNode : Element) (sizingNode : SizingNode) :
  svgNodeRef refs = Some svgNode ->
  sizingNodeRef refs = Some sizingNode ->
  tooltipNodeRef refs = Some tooltipNode ->
  vizType props = BarChart ->
  effect refs props =
  Returned
    {| drawn :=
         [createBarChart (select svgNode) (select tooltipNode)
            (data props)
            {| width := clientWidth sizingNode;
               height := clientHeight sizingNode |}
            (axisLabels props) (overlayData props)];
       cleanup := Some svgNode |}.
Proof.
  intros Hs Hz Ht Hv. exact (effect_bar refs props Hs Hz Ht Hv).
Qed.

(** X14: a run of the effect that returns has made at most one drawing
    call, and it has made one exactly when the three references are attached
    and the tag is one of the three of [VizType]. *)
Theorem effect_draws_at_most_once (refs : Refs) (props : Props)
  (e : Effect) :
  effect refs props = Returned e ->
  List.length (drawn e) <= 1 /\
  (drawn e <> [] <-> attached refs /\ recognized (vizType props)).
Proof.
  rewrite attached_refs, recognized_tags. unfold effect.
  destruct (svgNodeRef refs) as [s|], (sizingNodeRef refs) as [z|],
    (tooltipNodeRef refs) as [t|];
    try (intros H; injection H as <-; simpl; split; [lia|]; split;
         [intros Hd; now elim Hd
         | intros [(s' & z' & t' & Hs & Hz & Ht) _]; discriminate]).
  assert (Ha : exists s' z' t',
             Some s = Some s' /\ Some z = Some z' /\ Some t = Some t')
    by (now exists s, z, t).
  destruct (String.eqb (vizType props) ScatterPlot);
    [intros H; injection H as <-; simpl; split;
       [lia | split; [auto | discriminate]]|].
  destruct (String.eqb (vizType props) BarChart);
    [intros H; injection H as <-; simpl; split;
       [lia | split; [auto | discriminate]]|].
  destruct (String.eqb (vizType props) RadarChart).
  - destruct (if Z.gtb (clientWidth z) (clientHeight z)
              then (clientHeight z, clientHeight z)
              else (clientWidth z, clientWidth z)) as [w h].
    destruct (color props); [|discriminate].
    intros H; injection H as <-; simpl; split;
      [lia | split; [auto | discriminate]].
  - intros H; injection H as <-; simpl; split; [lia|]. split.
    + intros Hd. now elim Hd.
    + intros [_ Hr]. discriminate.
Qed.

(** X15: the clean-up of a run that returns empties the svg element
    whenever the three references were attached, also when the tag is none
    of the three; when a reference was unattached, the clean-up does
    nothing, even with the svg element there. *)
Theorem cleanup_empties_the_svg (refs : Refs) (props : Props) (e : Effect) :
  effect refs props = Returned e ->
  (attached refs -> cleanup e = svgNodeRef refs) /\
  (~ attached refs -> cleanup e = None).
Proof.
  rewrite attached_refs. unfold effect.
  destruct (svgNodeRef refs) as [s|], (sizingNodeRef refs) as [z|],
    (tooltipNodeRef refs) as [t|];
    try (intros H; injection H as <-; simpl; split;
         [intros (s' & z' & t' & Hs & Hz & Ht); discriminate | reflexivity]).
  assert (Ha : exists s' z' t',
             Some s = Some s' /\ Some z = Some z' /\ Some t = Some t')
    by (now exists s, z, t).
  destruct (String.eqb (vizType props) ScatterPlot);
    [intros H; injection H as <-; simpl; split; [auto | now intros []]|].
  destruct (String.eqb (vizType props) BarChart);
    [intros H; injection H as <-; simpl; split; [auto | now intros []]|].
  destruct (String.eqb (vizType props) RadarChart).
  - destruct (if Z.gtb (clientWidth z) (clientHeight z)
              then (clientHeight z, clientHeight z)
              else (clientWidth z, clientWidth z)) as [w h].
    destruct (color props); [|discriminate].
    intros H; injection H as <-; simpl; split; [auto | now intros []].
  - intros H; injection H as <-; simpl; split; [auto | now intros []].
Qed.


(** X17: the image request carries the svg element of the reference, or
    [null] when there is none; its title is the chart title when that is a
    non-empty string, and 'chart' when it is absent or empty. *)
Theorem export_title_and_surface (refs : Refs) (props : Props) :
  image_svg (handleDownloadImage refs props) = svgNodeRef refs /\
  (forall t,
     chartTitle props = Some t -> t <> EmptyString ->
     image_title (handleDownloadImage refs props) = t) /\
  (chartTitle props = None \/ chartTitle props = Some EmptyString ->
   image_title (handleDownloadImage refs props) = "chart").
Proof.
  unfold handleDownloadImage.
  destruct (String.eqb (vizType props) RadarChart),
    (sizingNodeRef refs) as [z|];
    try destruct (Z.gtb (clientWidth z) (clientHeight z)); simpl;
    (split; [reflexivity|]; split;
     [ intros t Ht Hne; rewrite Ht; simpl;
       destruct (String.eqb_spec t EmptyString); [contradiction|reflexivity]
     | intros [Ht|Ht]; rewrite Ht; reflexivity ]).
Qed.

(** X18: for a radar chart with the sizing element attached the image
    request is a square, 3 times the smaller side of the element, at every
    size of the element, zero included. *)
Theorem radar_export_is_square (refs : Refs) (props : Props)
  (sizingNode : SizingNode) :
  sizingNodeRef refs = Some sizingNode ->
  vizType props = RadarChart ->
  image_width (handleDownloadImage refs props) =
    Some (3 * Z.min (clientWidth sizingNode) (clientHeight sizingNode))%Z /\
  image_height (handleDownloadImage refs props) =
    image_width (handleDownloadImage refs props).
Proof.
  intros Hz Hv. destruct (export_radar refs props Hz Hv) as [Hw Hh].
  rewrite Hw, Hh. split; reflexivity.
Qed.

(** X19: for a scatter plot or a bar chart the width and the height of the
    image request are settled one by one: each is undefined exactly when
    that side of the sizing element is zero, and 3 times the side
    otherwise. *)
Theorem box_export_by_dimension (refs : Refs) (props : Props)
  (sizingNode : SizingNode) :
  sizingNodeRef refs = Some sizingNode ->
  vizType props <> RadarChart ->
  (image_width (handleDownloadImage refs props) = None
   <-> clientWidth sizingNode = 0%Z) /\
  (clientWidth sizingNode <> 0%Z ->
   image_width (handleDownloadImage refs props) =
     Some (3 * clientWidth sizingNode)%Z) /\
  (image_height (handleDownloadImage refs props) = None
   <-> clientHeight sizingNode = 0%Z) /\
  (clientHeight sizingNode <> 0%Z ->
   image_height (handleDownloadImage refs props) =
     Some (3 * clientHeight sizingNode)%Z).
Proof.
  intros Hz Hv. destruct (export_box refs props Hz Hv) as [-> ->].
  destruct (Z.eqb_spec (clientWidth sizingNode) 0),
    (Z.eqb_spec (clientHeight sizingNode) 0);
    repeat split; try tauto; try discriminate; try reflexivity;
    intros; try contradiction; try discriminate.
Qed.

(** X20: with no sizing element attached the image request has neither
    width nor height, for a radar chart as for the others. *)
Theorem export_without_container (refs : Refs) (props : Props) :
  sizingNodeRef refs = None ->
  image_width (handleDownloadImage refs props) = None /\
  image_height (handleDownloadImage refs props) = None.
Proof. intros Hz. exact (export_unattached refs props Hz). Qed.

End Host.

Section Buttons.

Variables Data Json : Type.

Local Abbreviation Props := (Props Data).

(** X21: the container of the download buttons is left out exactly when
    image download is not enabled (the flag is false or absent) and no JSON
    to download is given. *)
Theorem buttons_left_out_iff (props : Props) (jsonToDownload : option Json) :
  downloadButtons props jsonToDownload = None <->
  enableImageDownload props <> Some true /\ jsonToDownload = None.
Proof.
  unfold downloadButtons, downloadImageButton, downloadDataButton.
  destruct (enableImageDownload props) as [[|]|], jsonToDownload as [j|];
    simpl; split; try discriminate; try tauto;
    try (intros [H1 H2]; discriminate);
    try (intros [H1 H2]; now elim H1);
    try (intros _; split; [discriminate | reflexivity]).
Qed.

(** X22: when the container of the download buttons is rendered, its first
    child is the 'Download Image' button, which runs [handleDownloadImage],
    exactly when the flag is true; its second child is the 'Download Data'
    button, which runs [downloadData], exactly when a JSON is given; and its
    top margin is '1rem' for every tag but that of the radar chart, for
    which it has none. *)
Theorem buttons_when_rendered (props : Props) (jsonToDownload : option Json)
  (c : DownloadButtonsContainer) :
  downloadButtons props jsonToDownload = Some c ->
  (first_child c =
     (if not_true (enableImageDownload props) then None
      else Some {| button_onClick := run_handleDownloadImage;
                   button_text := "Download Image" |}) /\
   (first_child c <> None <-> enableImageDownload props = Some true)) /\
  (second_child c =
     (if not_null jsonToDownload
      then Some {| button_onClick := run_downloadData;
                   button_text := "Download Data" |}
      else None) /\
   (second_child c <> None <-> jsonToDownload <> None)) /\
  (vizType props = RadarChart -> style_marginTop c = None) /\
  (vizType props <> RadarChart -> style_marginTop c = Some "1rem").
Proof.
  unfold downloadButtons, downloadImageButton, downloadDataButton.
  destruct (String.eqb_spec (vizType props) RadarChart) as [Hr|Hr];
    destruct (enableImageDownload props) as [[|]|], jsonToDownload as [j|];
    simpl; intros H; try discriminate H; injection H as <-; simpl;
    repeat split; try tauto; try discriminate; try reflexivity;
    intros; try contradiction; try discriminate; try reflexivity;
    try congruence.
Qed.

End Buttons.

End DataVizMore.

(** ** More scenarios, and instances of the further theorems *)

Module MoreScenarios.
Import Transform TransformSpec TransformNotions TransformMore.
Import DataViz DataVizSpec DataVizNotions DataVizRender DataVizMore.
Import Example MoreExamples.

(** A [null] first edge hides a complete second edge. *)
Example scenario_null_first_edge :
  run [with_edges tech [None; tech_edge]] "A1" = [].
Proof. reflexivity. Qed.

(** A second edge is never read. *)
Example scenario_second_edge_unread :
  run [with_edges tech [tech_edge; other_edge]] "A1" = run [tech] "A1".
Proof. reflexivity. Qed.

(** An empty title makes the request fall back on 'chart'. *)
Example scenario_empty_title :
  image_title
    (handleDownloadImage (mounted 800 400)
       {| DataViz.id := "chart-1"; vizType := ScatterPlot;
          enableImageDownload := Some true;
          chartTitle := Some EmptyString;
          data := [1; 2; 3]%Z; axisLabels := None; overlayData := None;
          color := None; maxValue := None |}) = "chart".
Proof. reflexivity. Qed.

Lemma tech_point_carries_tech :
  exists n,
    first_node tech = Some n /\
    title tech = Some (label tech_point) /\
    viability n = Some (x tech_point) /\
    attractiveness n = Some (y tech_point) /\
    tooltipContentOnly tech_point = true.
Proof.
  refine (@point_carries_record css show World (input_of [tech] "A1") 0
            tech tech_point _).
  exists 0. split; reflexivity.
Defined.

Lemma tech_point_selects_tech :
  exists code ttl,
    industryCode tech = Some code /\
    title tech = Some ttl /\
    forall w,
      call (onClick tech_point) w =
      select_industry {| TreeNode.value := code; TreeNode.label := ttl |} w.
Proof.
  refine (@onClick_selects_record css show World (input_of [tech] "A1") 0
            tech tech_point _).
  exists 0. split; reflexivity.
Defined.

Lemma tech_point_fill_is_one_of_two :
  (fill tech_point = css "#46899F" half \/
   fill tech_point = css "#E0B04E" half) /\
  (forall n r,
     first_node tech = Some n -> rca n = Some r -> JS.lt r one = false ->
     fill tech_point = css "#E0B04E" half).
Proof.
  refine (@fill_is_one_of_two css show World (input_of [tech] "A1") 0
            tech tech_point _).
  exists 0. split; reflexivity.
Defined.

Lemma tech_alone_highlighted :
  List.length
    (filter (@highlighted World)
       (fst (transform css show (input_of [tech; retail] "A1") 0))) <= 1.
Proof.
  refine (@at_most_one_highlighted css show World
            (input_of [tech; retail] "A1") 0 _).
  simpl. repeat constructor; simpl; intuition discriminate.
Defined.

Lemma unmounted_effect_does_nothing :
  effect unmounted (chart ScatterPlot) =
  Returned {| drawn := []; cleanup := None |}.
Proof.
  refine (@effect_waits_for_references Element Data unmounted
            (chart ScatterPlot) _).
  left. reflexivity.
Defined.

Lemma scatter_800_by_400 :
  effect (mounted 800 400) (chart ScatterPlot) =
  Returned
    {| drawn :=
         [createScatterPlot (select "svg") (select "tooltip") [1; 2; 3]%Z
            {| width := 800; height := 400 |} None];
       cleanup := Some "svg" |}.
Proof.
  refine (@scatter_plot_fills_the_container Element Data (mounted 800 400)
            (chart ScatterPlot) "svg" "tooltip"
            {| clientWidth := 800; clientHeight := 400 |} _ _ _ _);
    reflexivity.
Defined.

Lemma bar_800_by_400 :
  effect (mounted 800 400) (chart BarChart) =
  Returned
    {| drawn :=
         [createBarChart (select "svg") (select "tooltip") [1; 2; 3]%Z
            {| width := 800; height := 400 |} None None];
       cleanup := Some "svg" |}.
Proof.
  refine (@bar_chart_fills_the_container Element Data (mounted 800 400)
            (chart BarChart) "svg" "tooltip"
            {| clientWidth := 800; clientHeight := 400 |} _ _ _ _);
    reflexivity.
Defined.

Lemma radar_effect_draws_once :
  List.length (drawn radar_effect) <= 1 /\
  (drawn radar_effect <> [] <->
   attached (mounted 800 400) /\ recognized RadarChart).
Proof.
  refine (@effect_draws_at_most_once Element Data (mounted 800 400)
            (chart RadarChart) radar_effect _).
  reflexivity.
Defined.

Lemma radar_effect_cleanup :
  (attached (mounted 800 400) -> cleanup radar_effect = Some "svg") /\
  (~ attached (mounted 800 400) -> cleanup radar_effect = None).
Proof.
  refine (@cleanup_empties_the_svg Element Data (mounted 800 400)
            (chart RadarChart) radar_effect _).
  reflexivity.
Defined.

Lemma radar_no_width_export :
  image_width (handleDownloadImage (mounted 0 450) (chart RadarChart)) =
    Some 0%Z /\
  image_height (handleDownloadImage (mounted 0 450) (chart RadarChart)) =
    image_width (handleDownloadImage (mounted 0 450) (chart RadarChart)).
Proof.
  refine (@radar_export_is_square Element Data (mounted 0 450)
            (chart RadarChart) no_width _ _); reflexivity.
Defined.

Lemma scatter_no_width_export :
  (image_width (handleDownloadImage (mounted 0 450) (chart ScatterPlot)) =
     None <-> clientWidth no_width = 0%Z) /\
  (clientWidth no_width <> 0%Z ->
   image_width (handleDownloadImage (mounted 0 450) (chart ScatterPlot)) =
     Some (3 * clientWidth no_width)%Z) /\
  (image_height (handleDownloadImage (mounted 0 450) (chart ScatterPlot)) =
     None <-> clientHeight no_width = 0%Z) /\
  (clientHeight no_width <> 0%Z ->
   image_height (handleDownloadImage (mounted 0 450) (chart ScatterPlot)) =
     Some (3 * clientHeight no_width)%Z).
Proof.
  refine (@box_export_by_dimension Element Data (mounted 0 450)
            (chart ScatterPlot) no_width _ _).
  - reflexivity.
  - simpl. discriminate.
Defined.

Lemma unmounted_radar_export :
  image_width (handleDownloadImage unmounted (chart RadarChart)) = None /\
  image_height (handleDownloadImage unmounted (chart RadarChart)) = None.
Proof.
  refine (@export_without_container Element Data unmounted
            (chart RadarChart) _).
  reflexivity.
Defined.

Lemma scatter_both_buttons :
  (first_child both_buttons =
     (if not_true (enableImageDownload (chart ScatterPlot)) then None
      else Some {| button_onClick := run_handleDownloadImage;
                   button_text := "Download Image" |}) /\
   (first_child both_buttons <> None <->
    enableImageDownload (chart ScatterPlot) = Some true)) /\
  (second_child both_buttons =
     (if not_null (Some [1]%Z)
      then Some {| button_onClick := run_downloadData;
                   button_text := "Download Data" |}
      else None) /\
   (second_child both_buttons <> None <-> Some [1]%Z <> None)) /\
  (vizType (chart ScatterPlot) = RadarChart ->
   style_marginTop both_buttons = None) /\
  (vizType (chart ScatterPlot) <> RadarChart ->
   style_marginTop both_buttons = Some "1rem").
Proof.
  refine (@buttons_when_rendered Data (list Z) (chart ScatterPlot)
            (Some [1]%Z) both_buttons _).
  reflexivity.
Defined.

End MoreScenarios.
